(** * Spotify playlist extractor: normalisation, aggregates and exports

    A shallow embedding of [data_processor.py] (class [DataProcessor]) and of
    the Audio Features sheet of [excel_processor.py] (class [ExcelProcessor]),
    with the properties of the specification stated over it.

    Conventions of the embedding.
    - A Python value is a [pyval]: the JSON scalars and arrays that a raw track
      record or a playlist summary carries.  A [dict] is a [gmap string pyval];
      only [dict.get] is ever applied to one, so key order plays no role.
    - Text is [string], one [ascii] per character (ASCII text).
    - A Python [float] is an IEEE binary64, as Rocq's primitive [float].  The
      processors never compute with the floats of a record except in the
      aggregates, where the model says so explicitly ([FloatArith]).
    - Exceptions are values of [result]; the logger is a list of entries
      threaded through the monad [M]. *)

From Stdlib Require Import ZArith String Ascii List DecimalString QArith Floats Lia.
From stdpp Require Import gmap strings list fin_maps.

#[local] Set Warnings "-register-all".
Local Open Scope Z_scope.

(** ** Python values *)

Inductive pyval : Type :=
| PNone
| PBool (b : bool)
| PInt (z : Z)
| PFloat (f : float)
| PStr (s : string)
| PList (l : list pyval).

(** [bool(v)]: the truth value Python gives to [v]. *)
Definition truthy (v : pyval) : bool :=
  match v with
  | PNone => false
  | PBool b => b
  | PInt z => negb (z =? 0)
  | PFloat f => negb (PrimFloat.eqb f 0%float)
  | PStr s => negb (String.eqb s "")
  | PList l => match l with [] => false | _ => true end
  end.

(** [d.get(k, default)]. *)
Definition dict_get (d : gmap string pyval) (k : string) (dflt : pyval) : pyval :=
  default dflt (d !! k).

(** [d.get(k)], whose default is [None]. *)
Definition dict_get_none (d : gmap string pyval) (k : string) : pyval :=
  dict_get d k PNone.

(** [v == 'N/A'] for a text literal. *)
Definition eq_str (v : pyval) (s : string) : bool :=
  match v with
  | PStr s' => String.eqb s' s
  | _ => false
  end.

Definition is_none (v : pyval) : bool :=
  match v with PNone => true | _ => false end.

(** [str(n)] for an int. *)
Definition str_of_Z (z : Z) : string := NilZero.string_of_int (Z.to_int z).

(** ** Exceptions, the logger and the monad of the processors *)

Inductive exn : Type := TypeError | ValueError | AttributeError | IllegalCharacterError.

(** [FloatArith] marks a run that leaves the integer fragment: arithmetic on a
    [PFloat], which Python performs in binary64 and the embedding does not
    evaluate. *)
Inductive result (A : Type) : Type :=
| Ok (a : A)
| Raise (e : exn)
| FloatArith.
Arguments Ok {A} a.
Arguments Raise {A} e.
Arguments FloatArith {A}.

(** One entry per call of [logger.warning] / [logger.info] of
    [data_processor.py]; the entry keeps the values the message is
    formatted from. *)
Inductive log_entry : Type :=
| WarnFormatDate (date_string : pyval) (e : exn)
| WarnProcessTrack (name : pyval) (e : exn)
| InfoProcessed (n : nat).

Definition M (A : Type) : Type := list log_entry -> result A * list log_entry.

Definition ret {A} (a : A) : M A := fun lg => (Ok a, lg).

Definition bind {A B} (m : M A) (k : A -> M B) : M B :=
  fun lg =>
    match m lg with
    | (Ok a, lg') => k a lg'
    | (Raise e, lg') => (Raise e, lg')
    | (FloatArith, lg') => (FloatArith, lg')
    end.

Definition raise {A} (e : exn) : M A := fun lg => (Raise e, lg).

Definition lift {A} (r : result A) : M A := fun lg => (r, lg).

Definition log (entry : log_entry) : M unit := fun lg => (Ok tt, lg ++ [entry]).

(** [try: body  except Exception as e: handler(e)]. *)
Definition try_except {A} (body : M A) (handler : exn -> M A) : M A :=
  fun lg =>
    match body lg with
    | (Raise e, lg') => handler e lg'
    | r => r
    end.

(** [try: body  except ValueError: handler]. *)
Definition try_except_ValueError {A} (body : M A) (handler : M A) : M A :=
  fun lg =>
    match body lg with
    | (Raise ValueError, lg') => handler lg'
    | r => r
    end.

(** stdpp's monadic notation [x ← c; k] for [M]. *)
#[global] Instance M_ret : MRet M := @ret.
#[global] Instance M_bind : MBind M := fun A B k m => bind m k.

(** ** Text helpers *)

Definition chars (s : string) : list ascii := list_ascii_of_string s.

(** ['c' in s] for a one-character literal. *)
Definition contains_char (c : ascii) (s : string) : bool :=
  existsb (Ascii.eqb c) (chars s).

(** [s.replace(c, by)] for a one-character [c]: every occurrence. *)
Fixpoint replace_char (c : ascii) (by_ : string) (s : string) : string :=
  match s with
  | EmptyString => EmptyString
  | String a s' =>
      if Ascii.eqb a c then by_ +:+ replace_char c by_ s'
      else String a (replace_char c by_ s')
  end.

(** [sep.join(x)]: [x] must be iterable and yield text only.  A list yields
    its items, a text its characters; the scalars are not iterable. *)
Fixpoint all_str (l : list pyval) : option (list string) :=
  match l with
  | [] => Some []
  | PStr s :: l' => option_map (cons s) (all_str l')
  | _ :: _ => None
  end.

Definition str_join (sep : string) (x : pyval) : result string :=
  match x with
  | PList l =>
      match all_str l with
      | Some ss => Ok (String.concat sep ss)
      | None => Raise TypeError
      end
  | PStr s => Ok (String.concat sep (map (fun c => String c EmptyString) (chars s)))
  | _ => Raise TypeError
  end.

(** ** Dates: the part of [datetime] that [_format_date] uses

    [datetime.fromisoformat], [datetime.strptime] and [strftime] belong to
    the Python library; they are modelled from its documentation, on ASCII
    text.  Only the calendar date of a parsed value is kept, since
    [strftime('%Y-%m-%d')] reads nothing else; the time and the UTC offset are
    parsed and range-checked, because a malformed one makes the parse fail.
    [strftime] is taken with the zero-padded four-digit year of the
    documentation. *)

Record date : Type := mkdate { year : Z; month : Z; day : Z }.

Definition is_leap (y : Z) : bool :=
  ((y mod 4 =? 0) && negb (y mod 100 =? 0)) || (y mod 400 =? 0).

Definition days_in_month (y m : Z) : Z :=
  if m =? 2 then (if is_leap y then 29 else 28)
  else if (m =? 4) || (m =? 6) || (m =? 9) || (m =? 11) then 30
  else 31.

(** The check of the [datetime] constructor on the calendar fields. *)
Definition valid_date (y m d : Z) : bool :=
  (1 <=? y) && (y <=? 9999) && (1 <=? m) && (m <=? 12) &&
  (1 <=? d) && (d <=? days_in_month y m).

Definition digit_val (c : ascii) : option Z :=
  let n := Z.of_nat (nat_of_ascii c) in
  if (48 <=? n) && (n <=? 57) then Some (n - 48) else None.

(** Exactly [n] decimal digits at the head of [l]. *)
Fixpoint take_digits (n : nat) (acc : Z) (l : list ascii) : option (Z * list ascii) :=
  match n with
  | O => Some (acc, l)
  | S n' =>
      match l with
      | c :: l' =>
          match digit_val c with
          | Some v => take_digits n' (10 * acc + v) l'
          | None => None
          end
      | [] => None
      end
  end.

Definition expect (c : ascii) (l : list ascii) : option (list ascii) :=
  match l with
  | a :: l' => if Ascii.eqb a c then Some l' else None
  | [] => None
  end.

(** [zfill]: a non-negative number on at least [w] digits. *)
Definition pad (w : nat) (z : Z) : string :=
  let s := str_of_Z z in
  string_of_list_ascii (repeat "0"%char (w - String.length s)) +:+ s.

(** [dt.strftime('%Y-%m-%d')]. *)
Definition strftime_Ymd (dt : date) : string :=
  pad 4 (year dt) +:+ "-" +:+ pad 2 (month dt) +:+ "-" +:+ pad 2 (day dt).

(** *** [datetime.fromisoformat]

    The grammar that [isoformat] emits and that [fromisoformat] documents
    (Python 3.7 to 3.10; later versions accept further ISO 8601 forms):
    [YYYY-MM-DD[*HH[:MM[:SS[.fff[fff]]]][+HH:MM[:SS[.ffffff]]]]], where [*]
    is any single character.  [None] stands for [ValueError]. *)

Definition parse_isoformat_date (l : list ascii) : option (Z * Z * Z) :=
  '(y, l1) ← take_digits 4 0 l;
  l2 ← expect "-" l1;
  '(m, l3) ← take_digits 2 0 l2;
  l4 ← expect "-" l3;
  '(d, l5) ← take_digits 2 0 l4;
  match l5 with [] => Some (y, m, d) | _ => None end.

(** [HH[:MM[:SS[.fff[fff]]]]]: hours, minutes, seconds; the fraction is
    checked and dropped. *)
Definition parse_fraction (l : list ascii) : option unit :=
  match l with
  | [] => Some tt
  | c :: l' =>
      if Ascii.eqb c "." then
        match length l' with
        | 3%nat => '(_, r) ← take_digits 3 0 l'; Some tt
        | 6%nat => '(_, r) ← take_digits 6 0 l'; Some tt
        | _ => None
        end
      else None
  end.

Definition parse_hh_mm_ss_ff (l : list ascii) : option (Z * Z * Z) :=
  '(hh, l1) ← take_digits 2 0 l;
  match l1 with
  | [] => Some (hh, 0, 0)
  | c1 :: l2 =>
      if Ascii.eqb c1 ":" then
        '(mm, l3) ← take_digits 2 0 l2;
        match l3 with
        | [] => Some (hh, mm, 0)
        | c2 :: l4 =>
            if Ascii.eqb c2 ":" then
              '(ss, l5) ← take_digits 2 0 l4;
              _ ← parse_fraction l5;
              Some (hh, mm, ss)
            else None
        end
      else None
  end.

(** The UTC offset starts at the first [+] or [-] of the time text. *)
Fixpoint split_at_sign (l : list ascii) : option (list ascii * list ascii) :=
  match l with
  | [] => None
  | a :: l' =>
      if Ascii.eqb a "+" || Ascii.eqb a "-" then Some ([], l')
      else '(pre, post) ← split_at_sign l'; Some (a :: pre, post)
  end.

Definition valid_time (hms : Z * Z * Z) : bool :=
  let '(hh, mm, ss) := hms in (hh <? 24) && (mm <? 60) && (ss <? 60).

Definition parse_isoformat_time (l : list ascii) : option unit :=
  match split_at_sign l with
  | None =>
      hms ← parse_hh_mm_ss_ff l;
      if valid_time hms then Some tt else None
  | Some (timestr, tzstr) =>
      hms ← parse_hh_mm_ss_ff timestr;
      match length tzstr with
      | 5%nat | 8%nat | 15%nat =>
          tz ← parse_hh_mm_ss_ff tzstr;
          if valid_time hms && valid_time tz then Some tt else None
      | _ => None
      end
  end.

(** The first ten characters are the date; the eleventh is the separator,
    any character; a time must follow a separator. *)
Definition fromisoformat (date_string : string) : result date :=
  let l := chars date_string in
  match parse_isoformat_date (firstn 10 l) with
  | None => Raise ValueError
  | Some (y, m, d) =>
      let time_ok :=
        match skipn 10 l with
        | [] => true
        | _ :: tstr =>
            match parse_isoformat_time tstr with Some _ => true | None => false end
        end in
      if time_ok && valid_date y m d then Ok (mkdate y m d) else Raise ValueError
  end.

(** *** [datetime.strptime]

    [strptime] compiles the format to a regular expression and matches it at
    the start of the text, alternatives in the order written, with
    backtracking; text left over after the match is an error.
    [%Y] is [\d\d\d\d], [%m] is [1[0-2]|0[1-9]|[1-9]] and [%d] is
    [3[01]|[12]\d|0[1-9]|[1-9]| [1-9]]. *)

Inductive directive : Type :=
| dir_Y
| dir_m
| dir_d
| dir_lit (c : ascii).

(** The directives of a format string such as ['%Y-%m-%d']. *)
Fixpoint parse_format (l : list ascii) : list directive :=
  match l with
  | [] => []
  | c :: l' =>
      if Ascii.eqb c "%" then
        match l' with
        | k :: l'' =>
            (if Ascii.eqb k "Y" then dir_Y
             else if Ascii.eqb k "m" then dir_m
             else if Ascii.eqb k "d" then dir_d
             else dir_lit k) :: parse_format l''
        | [] => [dir_lit c]
        end
      else dir_lit c :: parse_format l'
  end.

(** One alternative: two characters [a b] with [a] in [[a_lo, a_hi]] and [b]
    in [[b_lo, b_hi]], read as a two-digit number. *)
Definition two_digits (a_lo a_hi b_lo b_hi : Z) (l : list ascii) : list (Z * list ascii) :=
  match l with
  | a :: b :: rest =>
      match digit_val a, digit_val b with
      | Some x, Some y =>
          if (a_lo <=? x) && (x <=? a_hi) && (b_lo <=? y) && (y <=? b_hi)
          then [(10 * x + y, rest)] else []
      | _, _ => []
      end
  | _ => []
  end.

(** One alternative: a single digit [1-9]. *)
Definition one_digit (l : list ascii) : list (Z * list ascii) :=
  match l with
  | a :: rest =>
      match digit_val a with
      | Some x => if 1 <=? x then [(x, rest)] else []
      | None => []
      end
  | _ => []
  end.

(** The alternatives of a numeric directive, in the order the regular
    expression tries them. *)
Definition alternatives (d : directive) (l : list ascii) : list (Z * list ascii) :=
  match d with
  | dir_Y => match take_digits 4 0 l with Some p => [p] | None => [] end
  | dir_m => two_digits 1 1 0 2 l ++ two_digits 0 0 1 9 l ++ one_digit l
  | dir_d =>
      two_digits 3 3 0 1 l ++ two_digits 1 2 0 9 l ++ two_digits 0 0 1 9 l ++
      one_digit l ++
      match l with
      | a :: rest => if Ascii.eqb a " " then one_digit rest else []
      | [] => []
      end
  | dir_lit c => match expect c l with Some rest => [(0, rest)] | None => [] end
  end.

(** The fields found so far; [strptime] starts from 1900-01-01. *)
Definition set_field (d : directive) (v : Z) (dt : date) : date :=
  match d with
  | dir_Y => mkdate v (month dt) (day dt)
  | dir_m => mkdate (year dt) v (day dt)
  | dir_d => mkdate (year dt) (month dt) v
  | dir_lit _ => dt
  end.

Fixpoint first_match {A B} (f : A -> option B) (l : list A) : option B :=
  match l with
  | [] => None
  | a :: l' => match f a with Some b => Some b | None => first_match f l' end
  end.

Fixpoint match_format (ds : list directive) (dt : date) (l : list ascii)
  : option (date * list ascii) :=
  match ds with
  | [] => Some (dt, l)
  | d :: ds' =>
      first_match (fun '(v, rest) => match_format ds' (set_field d v dt) rest)
                  (alternatives d l)
  end.

Definition strptime (date_string : string) (fmt : string) : result date :=
  match match_format (parse_format (chars fmt)) (mkdate 1900 1 1) (chars date_string) with
  | Some (dt, []) =>
      if valid_date (year dt) (month dt) (day dt) then Ok dt else Raise ValueError
  | _ => Raise ValueError
  end.

(** ** Parts of the Python runtime taken as parameters

    [round(x, 3)] on a float and [str(v)] of a float or of a list (the
    shortest-representation algorithm of [repr]) are library code; the
    processors only pass their results on. *)

Class PyRuntime : Type := {
  round3 : float -> float;
  str_other : pyval -> string
}.

(** [str(v)], as an f-string placeholder renders [v]. *)
Definition py_str `{PyRuntime} (v : pyval) : string :=
  match v with
  | PNone => "None"
  | PBool true => "True"
  | PBool false => "False"
  | PInt z => str_of_Z z
  | PStr s => s
  | PFloat _ | PList _ => str_other v
  end.

Definition LF : ascii := "010"%char.
Definition CR : ascii := "013"%char.
Definition DQUOTE : ascii := "034"%char.
Definition COMMA : ascii := ","%char.

(** [enumerate(l, start)]. *)
Fixpoint enumerate {A} (start : Z) (l : list A) : list (Z * A) :=
  match l with
  | [] => []
  | a :: l' => (start, a) :: enumerate (start + 1) l'
  end.

(** ** The [csv] module of the Python library, default dialect

    Delimiter [,], the double quote as quote character, [doublequote],
    [QUOTE_MINIMAL], line terminator CR LF, not strict, no escape character. *)

Module csv.

(** *** [csv.writer] *)

(** The text of one field: [None] is the empty text, a text is itself,
    anything else goes through [str]. *)
Definition field_text `{PyRuntime} (v : pyval) : string :=
  match v with
  | PNone => ""
  | _ => py_str v
  end.

Definition special (c : ascii) : bool :=
  Ascii.eqb c COMMA || Ascii.eqb c DQUOTE || Ascii.eqb c CR || Ascii.eqb c LF.

Definition needs_quote (s : string) : bool := existsb special (chars s).

(** Every quote character doubled. *)
Fixpoint double_quotes (l : list ascii) : list ascii :=
  match l with
  | [] => []
  | c :: l' =>
      if Ascii.eqb c DQUOTE then DQUOTE :: DQUOTE :: double_quotes l'
      else c :: double_quotes l'
  end.

Definition quote_field (s : string) : string :=
  if needs_quote s
  then string_of_list_ascii (DQUOTE :: double_quotes (chars s) ++ [DQUOTE])
  else s.

(** [writer.writerow(row)] for a row of two fields or more: the text it
    appends to the stream. *)
Definition writerow `{PyRuntime} (row : list pyval) : string :=
  String.concat "," (map (fun v => quote_field (field_text v)) row)
  +:+ string_of_list_ascii [CR; LF].

(** *** [csv.reader]

    The state machine of the reader.  A record is read from one line of
    the stream, and from the following ones as long as a quoted field is
    open at the end of the line. *)

Inductive parser_state : Type :=
| START_RECORD
| START_FIELD
| IN_FIELD
| IN_QUOTED_FIELD
| QUOTE_IN_QUOTED_FIELD
| EAT_CRNL.

Record reader : Type := mkreader {
  state : parser_state;
  field : list ascii;
  fields : list string
}.

Definition parse_reset : reader := mkreader START_RECORD [] [].

Definition save_field (r : reader) : reader :=
  mkreader (state r) [] (fields r ++ [string_of_list_ascii (field r)]).

Definition add_char (c : ascii) (r : reader) : reader :=
  mkreader (state r) (field r ++ [c]) (fields r).

Definition set_state (st : parser_state) (r : reader) : reader :=
  mkreader st (field r) (fields r).

Definition is_newline (c : ascii) : bool := Ascii.eqb c LF || Ascii.eqb c CR.

(** The step of [START_FIELD]. *)
Definition start_field (c : option ascii) (r : reader) : option reader :=
  match c with
  | None => Some (set_state START_RECORD (save_field r))
  | Some a =>
      if is_newline a then Some (set_state EAT_CRNL (save_field r))
      else if Ascii.eqb a DQUOTE then Some (set_state IN_QUOTED_FIELD r)
      else if Ascii.eqb a COMMA then Some (save_field r)
      else Some (set_state IN_FIELD (add_char a r))
  end.

(** One step on the character [c]; [None] as character is the end of the
    line, [None] as result is [csv.Error]. *)
Definition process_char (c : option ascii) (r : reader) : option reader :=
  match state r with
  | START_RECORD =>
      match c with
      | None => Some r
      | Some a =>
          if is_newline a then Some (set_state EAT_CRNL r)
          else start_field c (set_state START_FIELD r)
      end
  | START_FIELD => start_field c r
  | IN_FIELD =>
      match c with
      | None => Some (set_state START_RECORD (save_field r))
      | Some a =>
          if is_newline a then Some (set_state EAT_CRNL (save_field r))
          else if Ascii.eqb a COMMA then Some (set_state START_FIELD (save_field r))
          else Some (add_char a r)
      end
  | IN_QUOTED_FIELD =>
      match c with
      | None => Some r
      | Some a =>
          if Ascii.eqb a DQUOTE then Some (set_state QUOTE_IN_QUOTED_FIELD r)
          else Some (add_char a r)
      end
  | QUOTE_IN_QUOTED_FIELD =>
      match c with
      | None => Some (set_state START_RECORD (save_field r))
      | Some a =>
          if Ascii.eqb a DQUOTE then Some (set_state IN_QUOTED_FIELD (add_char a r))
          else if Ascii.eqb a COMMA then Some (set_state START_FIELD (save_field r))
          else if is_newline a then Some (set_state EAT_CRNL (save_field r))
          else Some (set_state IN_FIELD (add_char a r))
      end
  | EAT_CRNL =>
      match c with
      | None => Some (set_state START_RECORD r)
      | Some a => if is_newline a then Some r else None
      end
  end.

(** The characters of one line, then the end of the line. *)
Fixpoint process_line (line : list ascii) (r : reader) : option reader :=
  match line with
  | [] => process_char None r
  | c :: line' =>
      match process_char (Some c) r with
      | Some r' => process_line line' r'
      | None => None
      end
  end.

(** The lines of a text stream, each with its terminator, as iterating
    over [io.StringIO(text)] yields them. *)
Fixpoint lines_from (cur : list ascii) (l : list ascii) : list (list ascii) :=
  match l with
  | [] => match cur with [] => [] | _ => [cur] end
  | c :: l' =>
      if Ascii.eqb c LF then (cur ++ [c]) :: lines_from [] l'
      else lines_from (cur ++ [c]) l'
  end.

Definition splitlines (text : string) : list (list ascii) := lines_from [] (chars text).

(** All the records of the stream.  At the end of the stream an open
    quoted field is closed as it stands. *)
Fixpoint read_records (lines : list (list ascii)) (r : reader) : option (list (list string)) :=
  match lines with
  | [] =>
      match field r, state r with
      | [], START_RECORD => Some []
      | _, _ => Some [fields (save_field r)]
      end
  | line :: rest =>
      match process_line line r with
      | None => None
      | Some r' =>
          match state r' with
          | START_RECORD =>
              match read_records rest parse_reset with
              | Some rows => Some (fields r' :: rows)
              | None => None
              end
          | _ => read_records rest r'
          end
      end
  end.

(** [list(csv.reader(io.StringIO(text)))]. *)
Definition reader_rows (text : string) : option (list (list string)) :=
  read_records (splitlines text) parse_reset.

End csv.

(** ** [class DataProcessor] *)

Module DataProcessor.

(** The loop [for fmt in [...]] of [_format_date]: the first format that
    parses returns; [ValueError] moves on to the next one; after the loop
    the text is returned as it came. *)
Fixpoint for_formats (date_string : string) (fmts : list string) : M pyval :=
  match fmts with
  | [] => mret (PStr date_string)
  | fmt :: rest =>
      try_except_ValueError
        (dt ← lift (strptime date_string fmt);
         mret (PStr (strftime_Ymd dt)))
        (for_formats date_string rest)
  end.

(** [_format_date(self, date_string)].  The argument is whatever
    [track.get('added_at', '')] holds.  On a value that is not text,
    ['T' in date_string] raises [TypeError] for a scalar; for a list it is a
    membership test, after which [.replace] raises [AttributeError] or
    [strptime] raises [TypeError]. *)
Definition _format_date (date_string : pyval) : M pyval :=
  if negb (truthy date_string) then mret (PStr "Unknown")
  else
    try_except
      (match date_string with
       | PStr s =>
           if contains_char "T" s then
             dt ← lift (fromisoformat (replace_char "Z" "+00:00" s));
             mret (PStr (strftime_Ymd dt))
           else
             for_formats s ["%Y-%m-%d"; "%m/%d/%Y"; "%d/%m/%Y"]
       | PList l =>
           if existsb (fun x => eq_str x "T") l then raise AttributeError
           else raise TypeError
       | _ => raise TypeError
       end)
      (fun e =>
         _ ← log (WarnFormatDate date_string e);
         mret date_string).

(** [_standardize_track(self, track)]: the dict literal, its entries
    evaluated in the order written. *)
Definition _standardize_track (track : gmap string pyval) : M (gmap string pyval) :=
  artists ← lift (str_join ", " (dict_get track "artists" (PList [PStr "Unknown Artist"])));
  date_added ← _format_date (dict_get track "added_at" (PStr ""));
  mret (list_to_map [
    ("track_name", dict_get track "name" (PStr "Unknown"));
    ("artists", PStr artists);
    ("album_name", dict_get track "album_name" (PStr "Unknown Album"));
    ("duration", dict_get track "duration_formatted" (PStr "0:00"));
    ("duration_ms", dict_get track "duration_ms" (PInt 0));
    ("date_added", date_added);
    ("release_year", dict_get track "release_year" (PStr "Unknown"));
    ("popularity", dict_get track "popularity" (PInt 0));
    ("explicit", dict_get track "explicit" (PBool false));
    ("streams", dict_get track "streams" (PStr "N/A"));
    ("track_number", dict_get track "track_number" (PInt 0));
    ("danceability", dict_get track "danceability" (PStr "N/A"));
    ("energy", dict_get track "energy" (PStr "N/A"));
    ("valence", dict_get track "valence" (PStr "N/A"));
    ("tempo", dict_get track "tempo" (PStr "N/A"));
    ("acousticness", dict_get track "acousticness" (PStr "N/A"));
    ("instrumentalness", dict_get track "instrumentalness" (PStr "N/A"));
    ("liveness", dict_get track "liveness" (PStr "N/A"));
    ("speechiness", dict_get track "speechiness" (PStr "N/A"));
    ("loudness", dict_get track "loudness" (PStr "N/A"));
    ("key", dict_get track "key" (PStr "N/A"));
    ("mode", dict_get track "mode" (PStr "N/A"));
    ("time_signature", dict_get track "time_signature" (PStr "N/A"))
  ]).

(** The body of [for track in tracks_data] in [process_tracks]; the
    accumulator is the list [processed_tracks]. *)
Fixpoint process_loop (tracks_data : list (gmap string pyval))
    (processed_tracks : list (gmap string pyval)) : M (list (gmap string pyval)) :=
  match tracks_data with
  | [] => mret processed_tracks
  | track :: rest =>
      processed_tracks' ←
        try_except
          (processed_track ← _standardize_track track;
           mret (processed_tracks ++ [processed_track]))
          (fun e =>
             _ ← log (WarnProcessTrack (dict_get track "name" (PStr "Unknown")) e);
             mret processed_tracks);
      process_loop rest processed_tracks'
  end.

(** [process_tracks(self, tracks_data, playlist_data)]. *)
Definition process_tracks (tracks_data : list (gmap string pyval))
    (playlist_data : gmap string pyval) : M (list (gmap string pyval)) :=
  processed_tracks ← process_loop tracks_data [];
  _ ← log (InfoProcessed (length processed_tracks));
  mret processed_tracks.


(** *** Aggregates *)

(** One step of [sum(...)]: the accumulator is an int as long as the items
    are ints ([bool] is a subclass of [int]); [None], text and lists raise
    [TypeError]. *)
Definition py_add (acc : Z) (v : pyval) : result Z :=
  match v with
  | PInt z => Ok (acc + z)
  | PBool b => Ok (acc + Z.b2z b)
  | PFloat _ => FloatArith
  | PNone | PStr _ | PList _ => Raise TypeError
  end.

(** [sum(items)], from the start value [0]. *)
Fixpoint py_sum_from (acc : Z) (items : list pyval) : result Z :=
  match items with
  | [] => Ok acc
  | v :: rest =>
      match py_add acc v with
      | Ok acc' => py_sum_from acc' rest
      | Raise e => Raise e
      | FloatArith => FloatArith
      end
  end.

Definition py_sum (items : list pyval) : result Z := py_sum_from 0 items.

(** The three branches of the f-strings of [calculate_total_duration]. *)
Definition format_duration (hours minutes seconds : Z) : string :=
  if hours >? 0 then
    str_of_Z hours +:+ "h " +:+ str_of_Z minutes +:+ "m " +:+ str_of_Z seconds +:+ "s"
  else if minutes >? 0 then
    str_of_Z minutes +:+ "m " +:+ str_of_Z seconds +:+ "s"
  else
    str_of_Z seconds +:+ "s".

(** [calculate_total_duration(self, tracks_data)]; [//] and [%] are the
    floor division and its remainder, as [Z.div] and [Z.modulo]. *)
Definition calculate_total_duration (tracks_data : list (gmap string pyval)) : result string :=
  match py_sum (map (fun track => dict_get track "duration_ms" (PInt 0)) tracks_data) with
  | Ok total_ms =>
      let total_seconds := total_ms / 1000 in
      let hours := total_seconds / 3600 in
      let minutes := (total_seconds mod 3600) / 60 in
      let seconds := total_seconds mod 60 in
      Ok (format_duration hours minutes seconds)
  | Raise e => Raise e
  | FloatArith => FloatArith
  end.

(** The value of [avg_popularity]: the int [0] of the guard, or the true
    division [total / count] of two ints.  Python returns the binary64
    nearest to that quotient; the embedding keeps the two operands, that is
    the exact quotient. *)
Inductive pynum : Type :=
| NumInt (z : Z)
| NumTrueDiv (total count : Z).

(** [sum(1 for track in tracks_data if cond(track))]. *)
Definition count_if (cond : gmap string pyval -> bool)
    (tracks_data : list (gmap string pyval)) : Z :=
  Z.of_nat (length (filter (fun track => cond track = true) tracks_data)).

(** The dict that [get_data_summary] returns, one field per key. *)
Record summary : Type := mksummary {
  playlist_name : pyval;
  total_tracks_extracted : Z;
  total_duration : string;
  avg_popularity : pynum;
  explicit_tracks : Z;
  tracks_with_release_year : Z;
  tracks_with_audio_features : Z
}.

(** [get_data_summary(self, playlist_data, tracks_data)]; the entries are
    evaluated in the order written, so a fault of the duration comes before
    one of the popularity. *)
Definition get_data_summary (playlist_data : gmap string pyval)
    (tracks_data : list (gmap string pyval)) : result summary :=
  match calculate_total_duration tracks_data with
  | Ok duration =>
      let avg :=
        match tracks_data with
        | [] => Ok (NumInt 0)
        | _ :: _ =>
            match py_sum (map (fun track => dict_get track "popularity" (PInt 0)) tracks_data) with
            | Ok total => Ok (NumTrueDiv total (Z.of_nat (length tracks_data)))
            | Raise e => Raise e
            | FloatArith => FloatArith
            end
        end in
      match avg with
      | Ok avg =>
          Ok {| playlist_name := dict_get playlist_data "name" (PStr "Unknown");
                total_tracks_extracted := Z.of_nat (length tracks_data);
                total_duration := duration;
                avg_popularity := avg;
                explicit_tracks :=
                  count_if (fun track => truthy (dict_get track "explicit" (PBool false))) tracks_data;
                tracks_with_release_year :=
                  count_if (fun track => truthy (dict_get_none track "release_year")) tracks_data;
                tracks_with_audio_features :=
                  count_if (fun track => negb (is_none (dict_get_none track "danceability"))) tracks_data |}
      | Raise e => Raise e
      | FloatArith => FloatArith
      end
  | Raise e => Raise e
  | FloatArith => FloatArith
  end.

(** *** Delimited-text export *)

(** [_format_audio_feature(self, value)].  [round(n, 3)] of an int is the
    int; a [bool] is an int. *)
Definition _format_audio_feature `{PyRuntime} (value : pyval) : pyval :=
  if is_none value || eq_str value "N/A" then PStr "N/A"
  else
    match value with
    | PInt z => PInt z
    | PBool b => PInt (Z.b2z b)
    | PFloat f => PFloat (round3 f)
    | _ => PStr (py_str value)
    end.

Definition nl : string := String LF EmptyString.

(** The lines that [create_csv] writes by hand, before the tracks: the
    metadata header block and the blank line.  [now] is
    [datetime.now().strftime('%Y-%m-%d %H:%M:%S')]. *)
Definition metadata_block `{PyRuntime} (playlist_data : gmap string pyval)
    (tracks_data : list (gmap string pyval)) (now : string) : string :=
  "PLAYLIST METADATA" +:+ nl +:+
  "Name," +:+ py_str (dict_get playlist_data "name" (PStr "Unknown Playlist")) +:+ nl +:+
  "Description," +:+ String DQUOTE
     (py_str (dict_get playlist_data "description" (PStr "")) +:+ String DQUOTE nl) +:+
  "Total Saves/Followers," +:+ py_str (dict_get playlist_data "followers" (PInt 0)) +:+ nl +:+
  "Number of Songs," +:+
     py_str (dict_get playlist_data "total_tracks" (PInt (Z.of_nat (length tracks_data)))) +:+ nl +:+
  "Total Duration," +:+ py_str (dict_get playlist_data "total_duration" (PStr "Unknown")) +:+ nl +:+
  "URL," +:+ py_str (dict_get playlist_data "external_url" (PStr "")) +:+ nl +:+
  "Extracted on," +:+ now +:+ nl +:+
  nl.

Definition headers : list pyval :=
  map PStr [
    "Track Number"; "Track Name"; "Artist(s)"; "Album Name"; "Duration (mm:ss)";
    "Date Added"; "Release Year"; "Popularity"; "Explicit"; "Streams";
    "Danceability"; "Energy"; "Valence"; "Tempo"; "Acousticness";
    "Instrumentalness"; "Liveness"; "Speechiness"; "Loudness"; "Key"; "Mode";
    "Time Signature" ].

(** The list [row] built for the track at export position [i]. *)
Definition csv_row `{PyRuntime} (i : Z) (track : gmap string pyval) : list pyval :=
  [ PInt i;
    dict_get track "track_name" (PStr "Unknown");
    dict_get track "artists" (PStr "Unknown Artist");
    dict_get track "album_name" (PStr "Unknown Album");
    dict_get track "duration" (PStr "0:00");
    dict_get track "date_added" (PStr "Unknown");
    dict_get track "release_year" (PStr "Unknown");
    dict_get track "popularity" (PInt 0);
    (if truthy (dict_get track "explicit" (PBool false)) then PStr "Yes" else PStr "No");
    dict_get track "streams" (PStr "N/A");
    _format_audio_feature (dict_get_none track "danceability");
    _format_audio_feature (dict_get_none track "energy");
    _format_audio_feature (dict_get_none track "valence");
    _format_audio_feature (dict_get_none track "tempo");
    _format_audio_feature (dict_get_none track "acousticness");
    _format_audio_feature (dict_get_none track "instrumentalness");
    _format_audio_feature (dict_get_none track "liveness");
    _format_audio_feature (dict_get_none track "speechiness");
    _format_audio_feature (dict_get_none track "loudness");
    _format_audio_feature (dict_get_none track "key");
    _format_audio_feature (dict_get_none track "mode");
    _format_audio_feature (dict_get_none track "time_signature") ].

(** The tracks block: the label line, then the header row and the data
    rows through [csv.writer]. *)
Definition tracks_block `{PyRuntime} (tracks_data : list (gmap string pyval)) : string :=
  "TRACKS DATA" +:+ nl +:+
  csv.writerow headers +:+
  String.concat "" (map (fun '(i, track) => csv.writerow (csv_row i track))
                        (enumerate 1 tracks_data)).

(** [create_csv(self, playlist_data, tracks_data)]: the content of the
    stream.  No step of the body raises on a list of dicts. *)
Definition create_csv `{PyRuntime} (playlist_data : gmap string pyval)
    (tracks_data : list (gmap string pyval)) (now : string) : string :=
  metadata_block playlist_data tracks_data now +:+ tracks_block tracks_data.

End DataProcessor.

(** ** [class ExcelProcessor]: the Audio Features sheet

    A worksheet of [openpyxl] is a sparse map from (row, column) to cells;
    reading a cell that was never created gives the value [None].  The
    library's [ws.cell(row, column)] returns the cell, creating it empty when
    it does not exist. *)

Module ExcelProcessor.

Record font : Type := mkfont {
  font_size : option Z;
  font_bold : bool;
  font_color : option string
}.

Record cell : Type := mkcell {
  value : pyval;
  cell_font : option font;
  cell_fill : option string;       (* the colour of a solid PatternFill *)
  cell_alignment : option string;  (* the horizontal alignment *)
  cell_border : option string      (* the style of the four sides *)
}.

Definition empty_cell : cell := mkcell PNone None None None None.

Record worksheet : Type := mkws {
  title : string;
  cells : gmap (Z * Z) cell;
  freeze_panes : option string;
  column_width : gmap Z Z
}.

(** [self.wb.create_sheet(title)]: the new, empty sheet. *)
Definition create_sheet (t : string) : worksheet := mkws t ∅ None ∅.

Definition cell_at (ws : worksheet) (rc : Z * Z) : cell :=
  default empty_cell (cells ws !! rc).

(** The value read at a coordinate. *)
Definition value_at (ws : worksheet) (rc : Z * Z) : pyval := value (cell_at ws rc).

(** [ws.cell(row, column)] followed by an update of that cell. *)
Definition update_cell (rc : Z * Z) (f : cell -> cell) (ws : worksheet) : worksheet :=
  mkws (title ws) (<[rc := f (cell_at ws rc)]> (cells ws)) (freeze_panes ws) (column_width ws).

Definition with_value (v : pyval) (c : cell) : cell :=
  mkcell v (cell_font c) (cell_fill c) (cell_alignment c) (cell_border c).
Definition with_font (f : font) (c : cell) : cell :=
  mkcell (value c) (Some f) (cell_fill c) (cell_alignment c) (cell_border c).
Definition with_fill (colour : string) (c : cell) : cell :=
  mkcell (value c) (cell_font c) (Some colour) (cell_alignment c) (cell_border c).
Definition with_alignment (a : string) (c : cell) : cell :=
  mkcell (value c) (cell_font c) (cell_fill c) (Some a) (cell_border c).
Definition with_border (b : string) (c : cell) : cell :=
  mkcell (value c) (cell_font c) (cell_fill c) (cell_alignment c) (Some b).

(** The characters that [openpyxl] refuses in a text cell: the control
    characters other than tab, line feed and carriage return. *)
Definition illegal_char (c : ascii) : bool :=
  let n := Z.of_nat (nat_of_ascii c) in
  (n <=? 8) || ((11 <=? n) && (n <=? 12)) || ((14 <=? n) && (n <=? 31)).

(** What [cell.value = v] stores: a list is refused with [ValueError]; a
    text is cut to 32767 characters and refused if it holds an illegal
    character. *)
Definition bind_value (v : pyval) : result pyval :=
  match v with
  | PList _ => Raise ValueError
  | PStr s =>
      let cut := firstn (Z.to_nat 32767) (chars s) in
      if existsb illegal_char cut then Raise IllegalCharacterError
      else Ok (PStr (string_of_list_ascii cut))
  | _ => Ok v
  end.

(** [ws.cell(row, column, value=v)]: the value is assigned unless it is
    [None]. *)
Definition set_cell (rc : Z * Z) (v : pyval) (ws : worksheet) : result worksheet :=
  match v with
  | PNone => Ok (update_cell rc (fun c => c) ws)
  | _ =>
      match bind_value v with
      | Ok v' => Ok (update_cell rc (with_value v') ws)
      | Raise e => Raise e
      | FloatArith => FloatArith
      end
  end.

(** A loop body run over a list, left to right, stopping at the first
    exception. *)
Fixpoint for_each {A} (body : A -> worksheet -> result worksheet) (l : list A)
    (ws : worksheet) : result worksheet :=
  match l with
  | [] => Ok ws
  | a :: l' =>
      match body a ws with
      | Ok ws' => for_each body l' ws'
      | Raise e => Raise e
      | FloatArith => FloatArith
      end
  end.

(** [_format_feature(self, value)]. *)
Definition _format_feature `{PyRuntime} (value : pyval) : pyval :=
  if is_none value || eq_str value "N/A" then PStr "N/A"
  else
    match value with
    | PInt z => PInt z
    | PBool b => PInt (Z.b2z b)
    | PFloat f => PFloat (round3 f)
    | _ => PStr (py_str value)
    end.

(** *** [_style_worksheet] *)

Definition rows_of (ws : worksheet) : list Z := (map_to_list (cells ws)).*1.*1.
Definition cols_of (ws : worksheet) : list Z := (map_to_list (cells ws)).*1.*2.

(** [ws.max_row] and [ws.max_column]: 1 on an empty sheet. *)
Definition max_row (ws : worksheet) : Z := foldr Z.max 1 (rows_of ws).
Definition max_column (ws : worksheet) : Z := foldr Z.max 1 (cols_of ws).

(** [range(lo, hi + 1)]. *)
Definition range_incl (lo hi : Z) : list Z :=
  map (fun i => lo + Z.of_nat i) (seq 0 (Z.to_nat (hi + 1 - lo))).

(** [range(lo, hi + 1, 2)]. *)
Definition range_step2 (lo hi : Z) : list Z :=
  map (fun i => lo + 2 * Z.of_nat i) (seq 0 (Z.to_nat ((hi + 2 - lo) / 2))).

(** The cells of a column down to [last_row], each created on the way, as
    [ws.columns] yields them. *)
Definition touch_column (col last_row : Z) (ws : worksheet) : worksheet :=
  fold_left (fun w row => update_cell (row, col) (fun c => c) w)
            (range_incl 1 last_row) ws.

(** The width of a column: the longest [str(cell.value)] plus 2, at most 50. *)
Definition adjusted_width `{PyRuntime} (col : Z) (ws : worksheet) : Z :=
  let max_length :=
    foldr Z.max 0
      (map (fun row => Z.of_nat (String.length (py_str (value_at ws (row, col)))))
           (range_incl 1 (max_row ws))) in
  Z.min (max_length + 2) 50.

Definition set_width (col width : Z) (ws : worksheet) : worksheet :=
  mkws (title ws) (cells ws) (freeze_panes ws) (<[col := width]> (column_width ws)).

Definition auto_widths `{PyRuntime} (ws : worksheet) : worksheet :=
  match map_to_list (cells ws) with
  | [] => ws
  | _ =>
      let last_row := max_row ws in
      fold_left (fun w col =>
                   let w' := touch_column col last_row w in
                   set_width col (adjusted_width col w') w')
                (range_incl 1 (max_column ws)) ws
  end.

(** The thin border on every cell whose value is not [None]. *)
Definition add_borders (ws : worksheet) : worksheet :=
  fold_left (fun w row =>
               fold_left (fun w0 col =>
                            if is_none (value_at w0 (row, col))
                            then update_cell (row, col) (fun c => c) w0
                            else update_cell (row, col) (with_border "thin") w0)
                         (range_incl 1 (max_column ws)) w)
            (match map_to_list (cells ws) with [] => [] | _ => range_incl 1 (max_row ws) end)
            ws.

Definition set_freeze (ref : string) (ws : worksheet) : worksheet :=
  mkws (title ws) (cells ws) (Some ref) (column_width ws).

(** The light fill on every second row from row 3. *)
Definition stripe_rows (ws : worksheet) : worksheet :=
  fold_left (fun w row =>
               fold_left (fun w0 col => update_cell (row, col) (with_fill "F8F9FA") w0)
                         (range_incl 1 (max_column w)) w)
            (range_step2 3 (max_row ws)) ws.

Definition is_data_sheet (sheet_type : string) : bool :=
  String.eqb sheet_type "Tracks" || String.eqb sheet_type "Audio Features".

(** [_style_worksheet(self, ws, sheet_type)]. *)
Definition _style_worksheet `{PyRuntime} (sheet_type : string) (ws : worksheet) : worksheet :=
  let ws1 := auto_widths ws in
  let ws2 := if String.eqb sheet_type "Summary" then ws1 else add_borders ws1 in
  let ws3 := if is_data_sheet sheet_type then set_freeze "A2" ws2 else ws2 in
  if is_data_sheet sheet_type then stripe_rows ws3 else ws3.

(** *** [_create_audio_features_sheet] *)

Definition headers : list pyval :=
  map PStr [
    "Track #"; "Track Name"; "Danceability"; "Energy"; "Valence"; "Tempo";
    "Acousticness"; "Instrumentalness"; "Liveness"; "Speechiness";
    "Loudness"; "Key"; "Mode"; "Time Signature" ].

(** [v not in [None, 'N/A']]. *)
Definition real_value (v : pyval) : bool := negb (is_none v || eq_str v "N/A").

(** [any(track.get('danceability') not in [None, 'N/A'] for track in tracks_data)]. *)
Definition has_features (tracks_data : list (gmap string pyval)) : bool :=
  existsb (fun track => real_value (dict_get_none track "danceability")) tracks_data.

(** The body of the header loop. *)
Definition write_header_cell (ch : Z * pyval) (ws : worksheet) : result worksheet :=
  let '(col, header) := ch in
  match set_cell (1, col) header ws with
  | Ok ws1 =>
      Ok (update_cell (1, col) (with_alignment "center")
           (update_cell (1, col) (with_fill "1DB954")
              (update_cell (1, col) (with_font (mkfont None true (Some "FFFFFF"))) ws1)))
  | Raise e => Raise e
  | FloatArith => FloatArith
  end.

(** The fourteen values written for the track on sheet row [row]. *)
Definition feature_row `{PyRuntime} (row : Z) (track : gmap string pyval) : list pyval :=
  [ PInt (row - 1);
    dict_get track "track_name" (PStr "Unknown");
    _format_feature (dict_get_none track "danceability");
    _format_feature (dict_get_none track "energy");
    _format_feature (dict_get_none track "valence");
    _format_feature (dict_get_none track "tempo");
    _format_feature (dict_get_none track "acousticness");
    _format_feature (dict_get_none track "instrumentalness");
    _format_feature (dict_get_none track "liveness");
    _format_feature (dict_get_none track "speechiness");
    _format_feature (dict_get_none track "loudness");
    _format_feature (dict_get_none track "key");
    _format_feature (dict_get_none track "mode");
    _format_feature (dict_get_none track "time_signature") ].

(** The body of the data loop: the fourteen [ws.cell] calls of one row. *)
Definition write_data_row `{PyRuntime} (rt : Z * gmap string pyval) (ws : worksheet)
  : result worksheet :=
  let '(row, track) := rt in
  for_each (fun '(col, v) => set_cell (row, col) v) (enumerate 1 (feature_row row track)) ws.

Definition warning_title : string := "Audio Features Not Available".
Definition warning_note : string :=
  "Audio features require extended API permissions or may not be available for all tracks.".

(** [_create_audio_features_sheet(self, tracks_data)]: the sheet that
    [create_sheet] appended to the workbook, or the exception raised. *)
Definition _create_audio_features_sheet `{PyRuntime}
    (tracks_data : list (gmap string pyval)) : result worksheet :=
  let ws := create_sheet "Audio Features" in
  if negb (has_features tracks_data) then
    match set_cell (1, 1) (PStr warning_title) ws with
    | Ok ws1 =>
        set_cell (3, 1) (PStr warning_note)
          (update_cell (1, 1) (with_font (mkfont (Some 14) true (Some "FF0000"))) ws1)
    | Raise e => Raise e
    | FloatArith => FloatArith
    end
  else
    match for_each write_header_cell (enumerate 1 headers) ws with
    | Ok ws1 =>
        match for_each write_data_row (enumerate 2 tracks_data) ws1 with
        | Ok ws2 => Ok (_style_worksheet "Audio Features" ws2)
        | Raise e => Raise e
        | FloatArith => FloatArith
        end
    | Raise e => Raise e
    | FloatArith => FloatArith
    end.

End ExcelProcessor.

(** * Specification-side definitions

    The tables, predicates and example inputs that the properties are
    stated with. *)

Import DataProcessor.

(** The 23 fields of the canonical track record. *)
Definition canonical_fields : list string := [
  "track_name"; "artists"; "album_name"; "duration"; "duration_ms";
  "date_added"; "release_year"; "popularity"; "explicit"; "streams";
  "track_number"; "danceability"; "energy"; "valence"; "tempo";
  "acousticness"; "instrumentalness"; "liveness"; "speechiness"; "loudness";
  "key"; "mode"; "time_signature" ].

(** The table of section 3 for the fields that are substituted as they
    are: canonical field, raw field, default when absent. *)
Definition default_table : list (string * string * pyval) := [
  ("track_name", "name", PStr "Unknown");
  ("album_name", "album_name", PStr "Unknown Album");
  ("duration", "duration_formatted", PStr "0:00");
  ("duration_ms", "duration_ms", PInt 0);
  ("release_year", "release_year", PStr "Unknown");
  ("popularity", "popularity", PInt 0);
  ("explicit", "explicit", PBool false);
  ("streams", "streams", PStr "N/A");
  ("track_number", "track_number", PInt 0);
  ("danceability", "danceability", PStr "N/A");
  ("energy", "energy", PStr "N/A");
  ("valence", "valence", PStr "N/A");
  ("tempo", "tempo", PStr "N/A");
  ("acousticness", "acousticness", PStr "N/A");
  ("instrumentalness", "instrumentalness", PStr "N/A");
  ("liveness", "liveness", PStr "N/A");
  ("speechiness", "speechiness", PStr "N/A");
  ("loudness", "loudness", PStr "N/A");
  ("key", "key", PStr "N/A");
  ("mode", "mode", PStr "N/A");
  ("time_signature", "time_signature", PStr "N/A") ].

(** The record that [_standardize_track] builds from the joined artists
    and the formatted date. *)
Definition canonical_of (track : gmap string pyval) (artists : string) (date_added : pyval)
  : gmap string pyval :=
  list_to_map (
    ("artists", PStr artists) :: ("date_added", date_added) ::
    map (fun '(ck, rk, dflt) => (ck, dict_get track rk dflt)) default_table).

(** Every one of the 23 fields is present and holds a value other than
    [None]. *)
Definition populated (c : gmap string pyval) : Prop :=
  forall k, k ∈ canonical_fields -> exists v, c !! k = Some v /\ v <> PNone.

Definition audio_feature_fields : list string := [
  "danceability"; "energy"; "valence"; "tempo"; "acousticness";
  "instrumentalness"; "liveness"; "speechiness"; "loudness"; "key"; "mode";
  "time_signature" ].

Definition numeric_or_na (v : pyval) : bool :=
  match v with
  | PInt _ | PFloat _ => true
  | PStr s => String.eqb s "N/A"
  | _ => false
  end.

(** What the specification promises of [_standardize_track] on the raw
    record [track]: a canonical record, fully populated, whose audio
    features are numbers or ["N/A"]. *)
Definition normalizes_to_populated (track : gmap string pyval) : Prop :=
  exists c lg, _standardize_track track [] = (Ok c, lg) /\ populated c /\
    forall k, k ∈ audio_feature_fields ->
      exists v, c !! k = Some v /\ numeric_or_na v = true.

(** A raw record as [web_scraper.py] builds it: [release_year] and
    [streams] are present and hold [None]. *)
Definition scraped_track : gmap string pyval :=
  list_to_map [
    ("track_number", PInt 1); ("name", PStr "Track 1");
    ("artists", PList [PStr "Unknown Artist"]); ("album_name", PStr "Unknown Album");
    ("duration_formatted", PStr "3:20"); ("duration_ms", PInt 200000);
    ("added_at", PStr ""); ("release_year", PNone); ("popularity", PInt 0);
    ("explicit", PBool false); ("streams", PNone) ].

(** The first track of the end-to-end scenario of the specification. *)
Definition road_trip_track_A : gmap string pyval :=
  list_to_map [
    ("name", PStr "A"); ("artists", PList [PStr "X"]); ("album_name", PStr "Alb");
    ("duration_ms", PInt 200000); ("popularity", PInt 50) ].

(** The fields whose key is the same in the raw and in the canonical
    record. *)
Definition shared_fields : list string := [
  "album_name"; "duration_ms"; "release_year"; "popularity"; "explicit";
  "streams"; "track_number"; "danceability"; "energy"; "valence"; "tempo";
  "acousticness"; "instrumentalness"; "liveness"; "speechiness"; "loudness";
  "key"; "mode"; "time_signature" ].

(** The patterns [YYYY-MM-DD], [MM/DD/YYYY], [DD/MM/YYYY] tried in that
    order; the first that parses is reformatted, and the text stays as it is
    when none does. *)
Definition first_parsed (s : string) : string :=
  match strptime s "%Y-%m-%d" with
  | Ok dt => strftime_Ymd dt
  | _ =>
      match strptime s "%m/%d/%Y" with
      | Ok dt => strftime_Ymd dt
      | _ =>
          match strptime s "%d/%m/%Y" with
          | Ok dt => strftime_Ymd dt
          | _ => s
          end
      end
  end.

(** The rule of the specification for [date_added], on a text. *)
Definition date_rule (s : string) : string :=
  if String.eqb s "" then "Unknown"
  else if contains_char "T" s then
    match fromisoformat (replace_char "Z" "+00:00" s) with
    | Ok dt => strftime_Ymd dt
    | _ => s
    end
  else first_parsed s.

Definition is_int (v : pyval) : bool :=
  match v with PInt _ | PBool _ => true | _ => false end.

(** The field [k] of a track, read as an int, absent read as 0. *)
Definition int_field (k : string) (track : gmap string pyval) : Z :=
  match track !! k with
  | Some (PInt z) => z
  | Some (PBool b) => Z.b2z b
  | _ => 0
  end.

(** The field [k] is absent or holds an int. *)
Definition int_or_absent (k : string) (track : gmap string pyval) : Prop :=
  match track !! k with
  | Some v => is_int v = true
  | None => True
  end.

Definition sum_field (k : string) (tracks : list (gmap string pyval)) : Z :=
  foldr Z.add 0 (map (int_field k) tracks).

Definition track_of_duration (ms : Z) : gmap string pyval :=
  {[ "duration_ms" := PInt ms ]}.

(** The canonical record of a raw track, when normalising it does not
    raise. *)
Definition standardized (track : gmap string pyval) : option (gmap string pyval) :=
  match _standardize_track track [] with
  | (Ok c, _) => Some c
  | _ => None
  end.

(** What handling one raw track appends to the log: the warnings of the
    normaliser, then the warning of [process_tracks] when it raised. *)
Definition track_warnings (track : gmap string pyval) : list log_entry :=
  match _standardize_track track [] with
  | (Raise e, w) => w ++ [WarnProcessTrack (dict_get track "name" (PStr "Unknown")) e]
  | (_, w) => w
  end.

(** The rational that a [pynum] stands for. *)
Definition num_to_Q (n : pynum) : Q :=
  match n with
  | NumInt z => inject_Z z
  | NumTrueDiv total count => Qdiv (inject_Z total) (inject_Z count)
  end.

(** The popularity of every track, absent read as 0. *)
Definition popularities (tracks : list (gmap string pyval)) : list Z :=
  map (int_field "popularity") tracks.

(** The arithmetic mean of a non-empty list of ints. *)
Definition mean (l : list Z) : Q :=
  Qdiv (inject_Z (foldr Z.add 0 l)) (inject_Z (Z.of_nat (length l))).

Definition track_of_popularity (p : Z) : gmap string pyval :=
  {[ "popularity" := PInt p ]}.

(** A track has a known release year when [release_year] is present,
    truthy and not the default ["Unknown"] of the canonical record. *)
Definition known_release_year (track : gmap string pyval) : bool :=
  let v := dict_get_none track "release_year" in
  truthy v && negb (eq_str v "Unknown").

(** A track carries audio features when [danceability] holds a real value:
    neither [None] nor the default ["N/A"] of the canonical record. *)
Definition carries_audio_features (track : gmap string pyval) : bool :=
  ExcelProcessor.real_value (dict_get_none track "danceability").

(** The canonical record of the raw record without any field: every field
    at its default. *)
Definition all_defaults : gmap string pyval :=
  canonical_of ∅ "Unknown Artist" (PStr "Unknown").

(** An instance of the runtime parameters for closed examples whose values
    hold no float and no list: neither method is called on them. *)
Definition scalar_runtime : PyRuntime :=
  {| round3 := fun f => f; str_other := fun _ => "" |}.

Definition quoted_hi : string := "say " +:+ String DQUOTE ("hi" +:+ String DQUOTE "").

(** A playlist whose name holds the delimiter and whose description holds
    quote characters. *)
Definition road_trip_playlist : gmap string pyval :=
  list_to_map [
    ("name", PStr "Road, Trip"); ("description", PStr quoted_hi);
    ("followers", PInt 120); ("total_tracks", PInt 1) ].

(** A canonical track carrying the same two texts. *)
Definition road_trip_track : gmap string pyval :=
  list_to_map [ ("track_name", PStr "Road, Trip"); ("artists", PStr quoted_hi) ].

(** A canonical track with a real danceability. *)
Definition dance_track : gmap string pyval :=
  list_to_map [ ("track_name", PStr "A"); ("danceability", PInt 1) ].

Section SheetSpecification.

Import ExcelProcessor.

Context `{PyRuntime}.

(** [openpyxl] accepts the value [v] in a cell. *)
Definition storable (v : pyval) : bool :=
  match bind_value v with Ok _ => true | _ => false end.

(** The value read back from a cell after [v] was written to it. *)
Definition stored (v : pyval) : pyval :=
  match bind_value v with Ok v' => v' | _ => PNone end.

(** A loop body that writes [v] at [(row, col)] and leaves the other values
    alone. *)
Definition writes_cell (row : Z) (body : Z * pyval -> worksheet -> result worksheet) : Prop :=
  forall col v ws, storable v = true ->
    exists ws', body (col, v) ws = Ok ws' /\
      forall rc, value_at ws' rc =
        if decide ((row, col) = rc)
        then (if is_none v then value_at ws rc else stored v)
        else value_at ws rc.

(** Every value of the row of a track is accepted by the sheet. *)
Definition row_storable (track : gmap string pyval) : Prop :=
  forall row, Forall (fun v => storable v = true) (feature_row row track).

(** The sheet with the warning only: the title in A1 with its font, the
    note in A3, nothing else and no styling. *)
Definition warning_sheet : worksheet :=
  mkws "Audio Features"
    (<[(3, 1) := mkcell (PStr warning_note) None None None None]>
       (<[(1, 1) := mkcell (PStr warning_title)
                      (Some (mkfont (Some 14) true (Some "FF0000"))) None None None]> ∅))
    None ∅.

(** The value that the Audio Features sheet of [tracks] holds at row [r],
    column [c]: the header on row 1, the row of the track number [r - 1] on
    the rows 2 to [length tracks + 1], nothing elsewhere. *)
Definition sheet_value (tracks : list (gmap string pyval)) (r c : Z) : pyval :=
  if decide (1 <= c <= 14) then
    if decide (r = 1) then nth (Z.to_nat (c - 1)) headers PNone
    else if decide (2 <= r < 2 + Z.of_nat (length tracks)) then
      stored (nth (Z.to_nat (c - 1))
                  (feature_row r (nth (Z.to_nat (r - 2)) tracks ∅)) PNone)
    else PNone
  else PNone.

End SheetSpecification.


(** * Properties *)

(** ** Outcomes of the date helpers *)

Lemma fromisoformat_outcome s :
  (exists dt, fromisoformat s = Ok dt) \/ fromisoformat s = Raise ValueError.
Proof.
  unfold fromisoformat. repeat case_match; eauto.
Qed.

Lemma strptime_outcome s fmt :
  (exists dt, strptime s fmt = Ok dt) \/ strptime s fmt = Raise ValueError.
Proof.
  unfold strptime. repeat case_match; eauto.
Qed.

Ltac split4 := split; [|split; [|split]].

Ltac unfold_M :=
  unfold try_except, try_except_ValueError, mbind, M_bind, bind, lift, raise,
    log, mret, M_ret, ret in *.

(** The loop over the formats neither logs nor raises. *)
Lemma for_formats_pure s fmts :
  exists x, forall lg, for_formats s fmts lg = (Ok (PStr x), lg).
Proof.
  induction fmts as [|fmt rest [x IH]]; simpl.
  - exists s. reflexivity.
  - destruct (strptime_outcome s fmt) as [[dt E]|E].
    + exists (strftime_Ymd dt). intros lg. unfold_M. rewrite E. reflexivity.
    + exists x. intros lg. unfold_M. rewrite E. apply IH.
Qed.

(** What [_format_date] returns and logs does not depend on the log it is
    given: it returns a value that is not [None] and appends at most one
    warning. *)
Lemma format_date_outcome v :
  exists d w, d <> PNone /\ (w = [] \/ exists e, w = [WarnFormatDate v e]) /\
    (truthy v = false -> d = PStr "Unknown" /\ w = []) /\
    forall lg, _format_date v lg = (Ok d, lg ++ w).
Proof.
  unfold _format_date.
  destruct (truthy v) eqn:T; cbn [negb].
  2:{ exists (PStr "Unknown"), []. split4; auto; try discriminate.
      all: intros lg; rewrite app_nil_r; reflexivity. }
  assert (Hv : v <> PNone) by (intros ->; discriminate).
  assert (Hfail : forall e,
    exists d w, d <> PNone /\ (w = [] \/ exists e', w = [WarnFormatDate v e']) /\
      (true = false -> d = PStr "Unknown" /\ w = []) /\
      forall lg, (_ ← log (WarnFormatDate v e); mret v) lg = (Ok d, lg ++ w)).
  { intros e. exists v, [WarnFormatDate v e]. split4; eauto; discriminate. }
  destruct v as [|b|z|f|s|l]; try discriminate.
  - destruct (Hfail TypeError) as (d & w & ? & ? & ? & Hrun).
    exists d, w. split4; auto. all: intros lg; unfold_M; apply Hrun.
  - destruct (Hfail TypeError) as (d & w & ? & ? & ? & Hrun).
    exists d, w. split4; auto. all: intros lg; unfold_M; apply Hrun.
  - destruct (Hfail TypeError) as (d & w & ? & ? & ? & Hrun).
    exists d, w. split4; auto. all: intros lg; unfold_M; apply Hrun.
  - destruct (contains_char "T" s).
    + destruct (fromisoformat_outcome (replace_char "Z" "+00:00" s)) as [[dt E]|E].
      * exists (PStr (strftime_Ymd dt)), []. split4; auto; try discriminate.
        all: intros lg; unfold_M; rewrite E, app_nil_r; reflexivity.
      * destruct (Hfail ValueError) as (d & w & ? & ? & ? & Hrun).
        exists d, w. split4; auto. all: intros lg; unfold_M; rewrite E; apply Hrun.
    + destruct (for_formats_pure s ["%Y-%m-%d"; "%m/%d/%Y"; "%d/%m/%Y"]) as [x Hx].
      exists (PStr x), []. split4; auto; try discriminate.
      all: intros lg; unfold_M; rewrite Hx, app_nil_r; reflexivity.
  - destruct (existsb (fun x => eq_str x "T") l).
    + destruct (Hfail AttributeError) as (d & w & ? & ? & ? & Hrun).
      exists d, w. split4; auto. all: intros lg; unfold_M; apply Hrun.
    + destruct (Hfail TypeError) as (d & w & ? & ? & ? & Hrun).
      exists d, w. split4; auto. all: intros lg; unfold_M; apply Hrun.
Qed.

(** ** The canonical record *)

Lemma standardize_track_run track :
  exists d w, d <> PNone /\
    (truthy (dict_get track "added_at" (PStr "")) = false -> d = PStr "Unknown" /\ w = []) /\
    forall lg,
    _standardize_track track lg =
      match str_join ", " (dict_get track "artists" (PList [PStr "Unknown Artist"])) with
      | Ok artists => (Ok (canonical_of track artists d), lg ++ w)
      | Raise e => (Raise e, lg)
      | FloatArith => (FloatArith, lg)
      end.
Proof.
  destruct (format_date_outcome (dict_get track "added_at" (PStr ""))) as (d & w & Hd & _ & Hf & Hrun).
  exists d, w. split; [exact Hd|]. split; [exact Hf|].
  intros lg. unfold _standardize_track. unfold_M.
  destruct (str_join _ _) as [a| |]; try reflexivity.
  rewrite Hrun. reflexivity.
Qed.

Lemma str_join_outcome sep x :
  (exists s, str_join sep x = Ok s) \/ str_join sep x = Raise TypeError.
Proof.
  unfold str_join. repeat case_match; eauto.
Qed.

Ltac in_list := repeat (first [ left | right ]).

Ltac each_field H :=
  repeat (apply elem_of_cons in H as [->|H]); [..|apply elem_of_nil in H; contradiction].

Lemma dict_get_not_none (track : gmap string pyval) k dflt :
  (forall k v, track !! k = Some v -> v <> PNone) -> dflt <> PNone ->
  dict_get track k dflt <> PNone.
Proof.
  intros Hnn Hd. unfold dict_get. destruct (track !! k) eqn:E; simpl; eauto.
Qed.

(** C1, as the code has it.  For every raw track record whose [artists]
    can be joined (absent, a list of texts, or a text), [_standardize_track]
    returns a record with exactly the 23 canonical fields; a field absent
    from the raw record gets the default of the table of section 3 and a
    field present in it is copied as it is, [None] and unrounded numbers
    included; [artists] is the joined text and [date_added] the formatted
    date, never [None].  When no field present in the raw record holds
    [None], no field of the canonical record does. *)
Theorem standardize_track_defaults (track : gmap string pyval) (lg : list log_entry)
    (artists : string) :
  str_join ", " (dict_get track "artists" (PList [PStr "Unknown Artist"])) = Ok artists ->
  exists c lg',
    _standardize_track track lg = (Ok c, lg') /\
    dom c = list_to_set canonical_fields /\
    Forall (fun '(ck, rk, dflt) => c !! ck = Some (default dflt (track !! rk))) default_table /\
    c !! "artists" = Some (PStr artists) /\
    (track !! "artists" = None -> artists = "Unknown Artist") /\
    (exists d, c !! "date_added" = Some d /\ d <> PNone /\
               (track !! "added_at" = None -> d = PStr "Unknown")) /\
    ((forall k v, track !! k = Some v -> v <> PNone) -> populated c).
Proof.
  intros Hjoin.
  destruct (standardize_track_run track) as (d & w & Hd & Hfalsy & Hrun).
  specialize (Hrun lg). rewrite Hjoin in Hrun.
  exists (canonical_of track artists d), (lg ++ w).
  split; [exact Hrun|]. split.
  { unfold canonical_of. rewrite dom_list_to_map_L. reflexivity. }
  split.
  { unfold default_table. repeat constructor. }
  split; [reflexivity|]. split.
  { intros Habs. unfold dict_get in Hjoin. rewrite Habs in Hjoin.
    simpl in Hjoin. congruence. }
  split.
  { exists d. split; [reflexivity|]. split; [exact Hd|].
    intros Habs. apply Hfalsy. unfold dict_get. rewrite Habs. reflexivity. }
  intros Hnn k Hk. unfold canonical_fields in Hk.
  each_field Hk;
    (eexists; split; [reflexivity|]);
    try (apply dict_get_not_none; [exact Hnn|discriminate]);
    try discriminate; try exact Hd.
Qed.

Lemma standardize_track_defaults_witness :
  exists c lg',
    _standardize_track road_trip_track_A [] = (Ok c, lg') /\
    c !! "track_name" = Some (PStr "A") /\ c !! "artists" = Some (PStr "X") /\
    c !! "streams" = Some (PStr "N/A") /\ populated c.
Proof.
  destruct (standardize_track_defaults road_trip_track_A [] "X" eq_refl)
    as (c & lg' & Hrun & _ & Htab & Hart & _ & _ & Hpop).
  exists c, lg'. split; [exact Hrun|].
  split; [exact (Forall_inv Htab)|].
  split; [exact Hart|].
  split.
  { do 7 apply Forall_inv_tail in Htab. exact (Forall_inv Htab). }
  apply Hpop. intros k v Hkv.
  apply elem_of_list_to_map_2 in Hkv.
  repeat (apply elem_of_cons in Hkv as [Heq|Hkv]; [inversion Heq; discriminate|]).
  apply elem_of_nil in Hkv. contradiction.
Defined.

(** C1, counterexample.  On the record of the scraper, [streams] and
    [release_year] come out as [None]: the canonical record is not fully
    populated. *)
Lemma standardize_track_null_counterexample :
  ~ normalizes_to_populated scraped_track.
Proof.
  intros (c & lg & Hrun & Hpop & _).
  destruct (Hpop "streams") as (v & Hv & Hnn); [in_list|].
  destruct (standardize_track_run scraped_track) as (d & w & _ & _ & Hrun').
  specialize (Hrun' []). rewrite Hrun in Hrun'.
  change (str_join ", " (dict_get scraped_track "artists" (PList [PStr "Unknown Artist"])))
    with (@Ok string "Unknown Artist") in Hrun'.
  injection Hrun' as -> _.
  assert (Hs : canonical_of scraped_track "Unknown Artist" d !! "streams" = Some PNone)
    by reflexivity.
  congruence.
Qed.

(** C4, as the code has it.  Feeding a canonical record back into
    [_standardize_track] succeeds and logs nothing; it keeps the 19 fields
    whose key is the same in both shapes, resets [track_name], [duration]
    and [date_added] to their defaults (the raw keys [name],
    [duration_formatted] and [added_at] are absent from a canonical record)
    and joins the characters of the [artists] text with [", "]. *)
Theorem renormalize_canonical (track : gmap string pyval) (lg lg1 : list log_entry)
    (c : gmap string pyval) :
  _standardize_track track lg = (Ok c, lg1) ->
  exists c',
    _standardize_track c lg1 = (Ok c', lg1) /\
    (forall k, k ∈ shared_fields -> c' !! k = c !! k) /\
    c' !! "track_name" = Some (PStr "Unknown") /\
    c' !! "duration" = Some (PStr "0:00") /\
    c' !! "date_added" = Some (PStr "Unknown") /\
    exists a, c !! "artists" = Some (PStr a) /\
      c' !! "artists" =
        Some (PStr (String.concat ", " (map (fun ch => String ch EmptyString) (chars a)))).
Proof.
  intros Hrun.
  destruct (standardize_track_run track) as (d & w & Hd & _ & Hrun1).
  specialize (Hrun1 lg). rewrite Hrun in Hrun1.
  destruct (str_join _ _) as [a| |]; try discriminate.
  injection Hrun1 as -> ->.
  destruct (standardize_track_run (canonical_of track a d))
    as (d' & w' & _ & Hfalsy & Hrun2).
  specialize (Hrun2 (lg ++ w)).
  destruct (Hfalsy eq_refl) as [-> ->].
  change (str_join ", " (dict_get (canonical_of track a d) "artists"
            (PList [PStr "Unknown Artist"])))
    with (str_join ", " (PStr a)) in Hrun2.
  simpl str_join in Hrun2. rewrite app_nil_r in Hrun2.
  eexists. split; [exact Hrun2|].
  split.
  { intros k Hk. unfold shared_fields in Hk. each_field Hk; reflexivity. }
  split; [reflexivity|]. split; [reflexivity|]. split; [reflexivity|].
  exists a. split; reflexivity.
Qed.

Lemma renormalize_canonical_witness :
  exists c c',
    _standardize_track road_trip_track_A [] = (Ok c, []) /\
    _standardize_track c [] = (Ok c', []) /\
    c' !! "album_name" = c !! "album_name" /\
    c' !! "track_name" = Some (PStr "Unknown").
Proof.
  destruct (renormalize_canonical road_trip_track_A [] []
              (canonical_of road_trip_track_A "X" (PStr "Unknown")) eq_refl)
    as (c' & Hrun & Hshared & Hname & _).
  exists (canonical_of road_trip_track_A "X" (PStr "Unknown")), c'.
  split; [reflexivity|]. split; [exact Hrun|].
  split; [apply Hshared; in_list|exact Hname].
Defined.

(** C4, counterexample.  Normalising track A of the end-to-end scenario
    and normalising the result again gives a different record: the track
    name ["A"] has become ["Unknown"]. *)
Lemma renormalize_not_idempotent_counterexample :
  exists c c',
    _standardize_track road_trip_track_A [] = (Ok c, []) /\
    _standardize_track c [] = (Ok c', []) /\
    c !! "track_name" = Some (PStr "A") /\
    c' !! "track_name" = Some (PStr "Unknown") /\
    c' <> c.
Proof.
  exists (canonical_of road_trip_track_A "X" (PStr "Unknown")).
  eexists. split; [reflexivity|]. split; [reflexivity|].
  split; [reflexivity|]. split; [reflexivity|].
  intros Heq.
  apply (f_equal (fun m : gmap string pyval => m !! "track_name")) in Heq.
  vm_compute in Heq. discriminate.
Qed.

(** ** Date normalisation *)

Lemma for_formats_first_parsed s lg :
  for_formats s ["%Y-%m-%d"; "%m/%d/%Y"; "%d/%m/%Y"] lg = (Ok (PStr (first_parsed s)), lg).
Proof.
  unfold first_parsed. cbn [for_formats]. unfold_M.
  destruct (strptime_outcome s "%Y-%m-%d") as [[dt E]|E]; rewrite E; [reflexivity|].
  destruct (strptime_outcome s "%m/%d/%Y") as [[dt E']|E']; rewrite E'; [reflexivity|].
  destruct (strptime_outcome s "%d/%m/%Y") as [[dt E'']|E'']; rewrite E''; reflexivity.
Qed.

(** C2.  For every text, [_format_date] returns what the rule says:
    ["Unknown"] for the empty text; with a ["T"], the ISO-8601 date
    reformatted (a ["Z"] read as [+00:00]); otherwise the first of the three
    patterns that parses, reformatted; the text itself when nothing parses.
    The four examples of the specification are instances. *)
Theorem format_date_rule (s : string) (lg : list log_entry) :
  (_format_date (PStr s) lg).1 = Ok (PStr (date_rule s)) /\
  (_format_date (PStr "2023-05-12T10:00:00Z") lg).1 = Ok (PStr "2023-05-12") /\
  (_format_date (PStr "05/12/2023") lg).1 = Ok (PStr "2023-05-12") /\
  (_format_date (PStr "") lg).1 = Ok (PStr "Unknown") /\
  (_format_date (PStr "not-a-date") lg).1 = Ok (PStr "not-a-date").
Proof.
  split; [|repeat split; reflexivity].
  unfold _format_date, date_rule. cbn [truthy].
  destruct (String.eqb s "") eqn:Es; cbn [negb]; [reflexivity|].
  destruct (contains_char "T" s).
  - unfold_M.
    destruct (fromisoformat_outcome (replace_char "Z" "+00:00" s)) as [[dt E]|E];
      rewrite E; reflexivity.
  - unfold try_except. rewrite for_formats_first_parsed. reflexivity.
Qed.

(** ** Total duration *)

Lemma py_sum_from_ints k tracks acc :
  Forall (int_or_absent k) tracks ->
  py_sum_from acc (map (fun track => dict_get track k (PInt 0)) tracks)
  = Ok (acc + sum_field k tracks).
Proof.
  intros H. revert acc.
  induction H as [|track tracks Hint _ IH]; intros acc.
  - cbn. f_equal. unfold sum_field. simpl. lia.
  - change (sum_field k (track :: tracks))
      with (int_field k track + sum_field k tracks).
    cbn [map py_sum_from].
    unfold int_or_absent in Hint. unfold int_field.
    destruct (track !! k) as [v|] eqn:E.
    + replace (dict_get track k (PInt 0)) with v
        by (unfold dict_get; rewrite E; reflexivity).
      destruct v; try discriminate; cbn [py_add]; rewrite IH; f_equal; lia.
    + replace (dict_get track k (PInt 0)) with (PInt 0)
        by (unfold dict_get; rewrite E; reflexivity).
      cbn [py_add]. rewrite IH. f_equal. lia.
Qed.

(** C3.  When every [duration_ms] is absent or an int,
    [calculate_total_duration] sums them (absent as 0), takes the whole
    seconds, splits them into hours, minutes and seconds, and formats with
    the first branch that applies.  0 ms gives ["0s"], 65,000 ms ["1m 5s"],
    3,665,000 ms ["1h 1m 5s"], no track ["0s"]. *)
Theorem total_duration_format (tracks : list (gmap string pyval)) :
  Forall (int_or_absent "duration_ms") tracks ->
  let total_seconds := sum_field "duration_ms" tracks / 1000 in
  let h := total_seconds / 3600 in
  let m := (total_seconds mod 3600) / 60 in
  let s := total_seconds mod 60 in
  calculate_total_duration tracks =
    Ok (if 0 <? h then str_of_Z h +:+ "h " +:+ str_of_Z m +:+ "m " +:+ str_of_Z s +:+ "s"
        else if 0 <? m then str_of_Z m +:+ "m " +:+ str_of_Z s +:+ "s"
        else str_of_Z s +:+ "s") /\
  calculate_total_duration [track_of_duration 0] = Ok "0s" /\
  calculate_total_duration [track_of_duration 65000] = Ok "1m 5s" /\
  calculate_total_duration [track_of_duration 3665000] = Ok "1h 1m 5s" /\
  calculate_total_duration [] = Ok "0s".
Proof.
  intros Hint. cbv zeta.
  split; [|repeat split; reflexivity].
  unfold calculate_total_duration, py_sum.
  rewrite (py_sum_from_ints "duration_ms" tracks 0 Hint).
  rewrite Z.add_0_l. unfold format_duration.
  rewrite !Z.gtb_ltb. reflexivity.
Qed.

Lemma total_duration_format_witness :
  calculate_total_duration [track_of_duration 200000; ∅; track_of_duration 100000]
  = Ok "5m 0s".
Proof.
  assert (Hint : Forall (int_or_absent "duration_ms")
            [track_of_duration 200000; ∅; track_of_duration 100000]).
  { repeat constructor. }
  destruct (total_duration_format _ Hint) as [Hrun _].
  rewrite Hrun. reflexivity.
Defined.

(** ** Processing a sequence *)

Lemma standardized_cases track :
  (exists c w, (forall lg, _standardize_track track lg = (Ok c, lg ++ w)) /\
               standardized track = Some c /\ track_warnings track = w) \/
  (exists e, (forall lg, _standardize_track track lg = (Raise e, lg)) /\
             standardized track = None /\
             track_warnings track =
               [WarnProcessTrack (dict_get track "name" (PStr "Unknown")) e]).
Proof.
  destruct (standardize_track_run track) as (d & w & _ & _ & Hrun).
  unfold standardized, track_warnings.
  destruct (str_join_outcome ", " (dict_get track "artists" (PList [PStr "Unknown Artist"])))
    as [[a E]|E]; rewrite E in Hrun.
  - left. exists (canonical_of track a d), w. rewrite (Hrun []). auto.
  - right. exists TypeError. rewrite (Hrun []). auto.
Qed.

Lemma process_loop_run tracks :
  forall acc lg,
    process_loop tracks acc lg =
      (Ok (acc ++ omap standardized tracks), lg ++ concat (map track_warnings tracks)).
Proof.
  induction tracks as [|track tracks IH]; intros acc lg; cbn [process_loop].
  - cbn. rewrite !app_nil_r. reflexivity.
  - change (omap standardized (track :: tracks))
      with (match standardized track with
            | Some c => c :: omap standardized tracks
            | None => omap standardized tracks
            end).
    change (concat (map track_warnings (track :: tracks)))
      with (track_warnings track ++ concat (map track_warnings tracks)).
    destruct (standardized_cases track) as [(c & w & Hrun & -> & ->)|(e & Hrun & -> & ->)];
      unfold_M; rewrite Hrun, IH; cbn; rewrite <- !app_assoc; reflexivity.
Qed.

(** C6.  [process_tracks] never raises: whatever the raw tracks, it returns
    the canonical records of the tracks whose normalisation does not raise,
    in input order; a track whose normalisation raises is left out and one
    warning for it is logged; the tracks after it are still processed. *)
Theorem process_tracks_skips_faulting (tracks : list (gmap string pyval))
    (playlist : gmap string pyval) (lg : list log_entry) :
  process_tracks tracks playlist lg =
    (Ok (omap standardized tracks),
     lg ++ concat (map track_warnings tracks)
        ++ [InfoProcessed (length (omap standardized tracks))]) /\
  forall track,
    match standardized track with
    | Some c => exists w, forall lg0, _standardize_track track lg0 = (Ok c, lg0 ++ w) /\
                          track_warnings track = w
    | None => exists e, forall lg0, _standardize_track track lg0 = (Raise e, lg0) /\
                        track_warnings track =
                          [WarnProcessTrack (dict_get track "name" (PStr "Unknown")) e]
    end.
Proof.
  split.
  - unfold process_tracks. unfold_M. rewrite process_loop_run. cbn.
    rewrite <- app_assoc. reflexivity.
  - intros track.
    destruct (standardized_cases track) as [(c & w & Hrun & -> & ->)|(e & Hrun & -> & ->)].
    + exists w. intros lg0. split; [apply Hrun|reflexivity].
    + exists e. intros lg0. split; [apply Hrun|reflexivity].
Qed.

(** C10.  The playlist argument of [process_tracks] plays no role: two
    calls on the same tracks return the same records and log the same
    entries, whatever the two playlist records. *)
Theorem process_tracks_ignores_playlist (tracks : list (gmap string pyval))
    (p1 p2 : gmap string pyval) (lg : list log_entry) :
  process_tracks tracks p1 lg = process_tracks tracks p2 lg.
Proof.
  reflexivity.
Qed.

(** ** Summary statistics *)

(** C9.  When the durations and the popularities are absent or ints,
    [get_data_summary] returns a summary whose average popularity is the
    int 0 for no track and otherwise the quotient of the sum of the
    popularities (absent as 0) by the number of tracks, their arithmetic
    mean. *)
Theorem average_popularity_mean (playlist : gmap string pyval)
    (tracks : list (gmap string pyval)) :
  Forall (int_or_absent "duration_ms") tracks ->
  Forall (int_or_absent "popularity") tracks ->
  exists s,
    get_data_summary playlist tracks = Ok s /\
    (tracks = [] -> avg_popularity s = NumInt 0) /\
    (tracks <> [] ->
       avg_popularity s =
         NumTrueDiv (foldr Z.add 0 (popularities tracks)) (Z.of_nat (length tracks)) /\
       Qeq (num_to_Q (avg_popularity s)) (mean (popularities tracks)) /\
       Qeq (Qmult (num_to_Q (avg_popularity s)) (inject_Z (Z.of_nat (length tracks))))
           (inject_Z (foldr Z.add 0 (popularities tracks)))).
Proof.
  intros Hdur Hpop.
  unfold get_data_summary, calculate_total_duration, py_sum.
  rewrite (py_sum_from_ints "duration_ms" tracks 0 Hdur).
  destruct tracks as [|track tracks].
  - eexists. split; [reflexivity|]. split; [reflexivity|]. intros Hne. congruence.
  - rewrite (py_sum_from_ints "popularity" (track :: tracks) 0 Hpop).
    eexists. split; [reflexivity|]. split; [discriminate|]. intros _.
    cbn [avg_popularity]. rewrite Z.add_0_l.
    split; [reflexivity|].
    unfold num_to_Q, mean, popularities, sum_field. rewrite length_map.
    split; [reflexivity|].
    rewrite Qmult_comm. apply Qmult_div_r.
    unfold Qeq. cbn [length Qnum Qden inject_Z]. lia.
Qed.

Lemma average_popularity_mean_witness :
  exists s,
    get_data_summary ∅ [track_of_popularity 50; track_of_popularity 80] = Ok s /\
    avg_popularity s = NumTrueDiv 130 2 /\
    Qeq (num_to_Q (avg_popularity s)) (65 # 1).
Proof.
  assert (Hdur : Forall (int_or_absent "duration_ms")
            [track_of_popularity 50; track_of_popularity 80]) by (repeat constructor).
  assert (Hpop : Forall (int_or_absent "popularity")
            [track_of_popularity 50; track_of_popularity 80]) by (repeat constructor).
  destruct (average_popularity_mean ∅ _ Hdur Hpop) as (s & Hrun & _ & Havg).
  destruct (Havg ltac:(discriminate)) as (Hval & Hmean & _).
  exists s. split; [exact Hrun|]. split; [exact Hval|].
  rewrite Hmean. reflexivity.
Defined.

(** C7, the code at the failing input.  [all_defaults] is the canonical
    record of the empty raw record; its release year is the default
    ["Unknown"] and its danceability the default ["N/A"], yet
    [get_data_summary] counts it both as a track with a release year and as
    a track with audio features. *)
Theorem summary_counts_defaults :
  _standardize_track ∅ [] = (Ok all_defaults, []) /\
  all_defaults !! "release_year" = Some (PStr "Unknown") /\
  all_defaults !! "danceability" = Some (PStr "N/A") /\
  count_if known_release_year [all_defaults] = 0 /\
  count_if carries_audio_features [all_defaults] = 0 /\
  exists s,
    get_data_summary ∅ [all_defaults] = Ok s /\
    tracks_with_release_year s = 1 /\
    tracks_with_audio_features s = 1.
Proof.
  split; [reflexivity|]. split; [reflexivity|]. split; [reflexivity|].
  split; [reflexivity|]. split; [reflexivity|].
  eexists. split; [reflexivity|]. split; reflexivity.
Qed.

(** ** The metadata block of the delimited-text export *)

(** C5, the code at the failing input.  Read back with [csv.reader], the
    metadata block gives the name row three columns and a description that
    has lost a quote character and gained two: neither text is recovered.
    The track row of the same document, written through [csv.writer], gives
    both texts back. *)
Theorem metadata_block_not_recovered :
  exists rows,
    csv.reader_rows
      (@create_csv scalar_runtime road_trip_playlist [road_trip_track] "2024-01-01 00:00:00")
    = Some rows /\
    rows !! 1%nat = Some ["Name"; "Road"; " Trip"] /\
    rows !! 2%nat = Some ["Description"; "say hi" +:+ String DQUOTE (String DQUOTE "")] /\
    rows !! 1%nat <> Some ["Name"; "Road, Trip"] /\
    rows !! 2%nat <> Some ["Description"; quoted_hi] /\
    (take 3 <$> rows !! 11%nat) = Some ["1"; "Road, Trip"; quoted_hi].
Proof.
  eexists. split; [vm_compute; reflexivity|].
  repeat split; try reflexivity; vm_compute; discriminate.
Qed.

(** ** The Audio Features sheet *)

Section AudioFeaturesSheet.

Import ExcelProcessor.

Context `{PyRuntime}.

Lemma value_at_update_cell rc f ws rc' :
  value_at (update_cell rc f ws) rc' =
    if decide (rc = rc') then value (f (cell_at ws rc)) else value_at ws rc'.
Proof.
  unfold value_at, cell_at, update_cell. cbn [cells].
  rewrite lookup_insert. case_decide; reflexivity.
Qed.

(** An update that leaves the value of the cell alone leaves every value of
    the sheet alone. *)
Lemma value_at_restyle rc f ws rc' :
  (forall c, value (f c) = value c) ->
  value_at (update_cell rc f ws) rc' = value_at ws rc'.
Proof.
  intros Hf. rewrite value_at_update_cell. case_decide as E; [|reflexivity].
  subst rc'. rewrite Hf. reflexivity.
Qed.

Lemma value_at_fold_left {A} (g : worksheet -> A -> worksheet) (l : list A) ws rc :
  (forall w a, value_at (g w a) rc = value_at w rc) ->
  value_at (fold_left g l ws) rc = value_at ws rc.
Proof.
  intros Hg. revert ws. induction l as [|a l IH]; intros ws; cbn; [reflexivity|].
  rewrite IH. apply Hg.
Qed.

Lemma value_at_touch_column col last_row ws rc :
  value_at (touch_column col last_row ws) rc = value_at ws rc.
Proof.
  unfold touch_column. apply value_at_fold_left.
  intros w a. apply value_at_restyle. reflexivity.
Qed.

Lemma value_at_auto_widths ws rc : value_at (auto_widths ws) rc = value_at ws rc.
Proof.
  unfold auto_widths. destruct (map_to_list (cells ws)); [reflexivity|].
  apply value_at_fold_left. intros w a.
  change (value_at (set_width a (adjusted_width a (touch_column a (max_row ws) w))
                      (touch_column a (max_row ws) w)) rc)
    with (value_at (touch_column a (max_row ws) w) rc).
  apply value_at_touch_column.
Qed.

Lemma value_at_add_borders ws rc : value_at (add_borders ws) rc = value_at ws rc.
Proof.
  unfold add_borders. apply value_at_fold_left. intros w row.
  apply value_at_fold_left. intros w0 col.
  destruct (is_none (value_at w0 (row, col))); apply value_at_restyle; reflexivity.
Qed.

Lemma value_at_stripe_rows ws rc : value_at (stripe_rows ws) rc = value_at ws rc.
Proof.
  unfold stripe_rows. apply value_at_fold_left. intros w row.
  apply value_at_fold_left. intros w0 col. apply value_at_restyle. reflexivity.
Qed.

(** Styling a sheet changes no value. *)
Lemma value_at_style_worksheet sheet_type ws rc :
  value_at (_style_worksheet sheet_type ws) rc = value_at ws rc.
Proof.
  unfold _style_worksheet.
  destruct (is_data_sheet sheet_type), (String.eqb sheet_type "Summary");
    rewrite ?value_at_stripe_rows;
    change (value_at (set_freeze "A2" ?w) rc) with (value_at w rc);
    rewrite ?value_at_add_borders, ?value_at_auto_widths; try reflexivity.
Qed.

Lemma set_cell_writes row : writes_cell row (fun '(col, v) => set_cell (row, col) v).
Proof.
  intros col v ws Hv. unfold set_cell, storable, stored in *.
  destruct v; cbn [is_none];
    try (destruct (bind_value _) as [v'| |]; try discriminate);
    eexists; (split; [reflexivity|]); intros rc;
    rewrite value_at_update_cell; case_decide as E; subst; reflexivity.
Qed.

Lemma write_header_cell_writes : writes_cell 1 write_header_cell.
Proof.
  intros col v ws Hv.
  destruct (set_cell_writes 1 col v ws Hv) as (ws1 & Hrun & Hval).
  unfold write_header_cell. cbn in Hrun. rewrite Hrun.
  eexists. split; [reflexivity|]. intros rc.
  rewrite !value_at_restyle by reflexivity. apply Hval.
Qed.

(** The cells of one row, written left to right from column [start]. *)
Lemma write_cells_run row body vals :
  writes_cell row body ->
  Forall (fun v => storable v = true) vals ->
  forall start ws,
    (forall c, start <= c -> value_at ws (row, c) = PNone) ->
    exists ws', for_each body (enumerate start vals) ws = Ok ws' /\
      forall r c, value_at ws' (r, c) =
        if decide (r = row /\ start <= c < start + Z.of_nat (length vals))
        then stored (nth (Z.to_nat (c - start)) vals PNone)
        else value_at ws (r, c).
Proof.
  intros Hbody Hvals. induction Hvals as [|v vals Hv _ IH]; intros start ws Hempty.
  - exists ws. split; [reflexivity|]. intros r c.
    case_decide as E; [cbn in E; lia|reflexivity].
  - cbn [enumerate for_each].
    destruct (Hbody start v ws Hv) as (ws1 & -> & Hval1).
    destruct (IH (start + 1) ws1) as (ws' & -> & Hval').
    { intros c Hc. rewrite Hval1. case_decide as E; [injection E; lia|].
      apply Hempty. lia. }
    exists ws'. split; [reflexivity|]. intros r c.
    rewrite Hval'. cbn [length]. rewrite Hval1.
    destruct (decide (r = row /\ start + 1 <= c < start + 1 + Z.of_nat (length vals)))
      as [[-> Hc]|Hc].
    + rewrite decide_True by lia.
      replace (Z.to_nat (c - start)) with (S (Z.to_nat (c - (start + 1)))) by lia.
      reflexivity.
    + destruct (decide ((row, start) = (r, c))) as [E|E].
      * injection E as <- <-. rewrite decide_True by lia.
        replace (Z.to_nat (start - start)) with 0%nat by lia. cbn [nth].
        rewrite Hempty by lia.
        unfold stored. destruct v; cbn; try reflexivity.
      * rewrite decide_False; [reflexivity|].
        intros [-> Hc']. assert (c <> start) by congruence. lia.
Qed.

Lemma write_data_row_run row track ws :
  row_storable track ->
  (forall c, value_at ws (row, c) = PNone) ->
  exists ws', write_data_row (row, track) ws = Ok ws' /\
    forall r c, value_at ws' (r, c) =
      if decide (r = row /\ 1 <= c <= 14)
      then stored (nth (Z.to_nat (c - 1)) (feature_row row track) PNone)
      else value_at ws (r, c).
Proof.
  intros Hst Hempty. unfold write_data_row.
  destruct (write_cells_run row _ (feature_row row track) (set_cell_writes row) (Hst row) 1 ws)
    as (ws' & Hrun & Hval); [intros; apply Hempty|].
  exists ws'. split; [exact Hrun|]. intros r c. rewrite Hval.
  change (Z.of_nat (length (feature_row row track))) with 14.
  destruct (decide (r = row /\ 1 <= c <= 14)).
  - rewrite decide_True by lia. reflexivity.
  - rewrite decide_False by lia. reflexivity.
Qed.

(** The data loop: one row per track, from sheet row [start]. *)
Lemma write_data_rows_run tracks :
  Forall row_storable tracks ->
  forall start ws,
    (forall r c, start <= r -> value_at ws (r, c) = PNone) ->
    exists ws', for_each write_data_row (enumerate start tracks) ws = Ok ws' /\
      forall r c, value_at ws' (r, c) =
        if decide (start <= r < start + Z.of_nat (length tracks) /\ 1 <= c <= 14)
        then stored (nth (Z.to_nat (c - 1))
                         (feature_row r (nth (Z.to_nat (r - start)) tracks ∅)) PNone)
        else value_at ws (r, c).
Proof.
  intros Hst. induction Hst as [|track tracks Htrack _ IH]; intros start ws Hempty.
  - exists ws. split; [reflexivity|]. intros r c.
    case_decide as E; [cbn in E; lia|reflexivity].
  - cbn [enumerate for_each].
    destruct (write_data_row_run start track ws Htrack) as (ws1 & -> & Hval1).
    { intros c. apply Hempty. lia. }
    destruct (IH (start + 1) ws1) as (ws' & -> & Hval').
    { intros r c Hr. rewrite Hval1. rewrite decide_False by lia. apply Hempty. lia. }
    exists ws'. split; [reflexivity|]. intros r c.
    rewrite Hval', Hval1. cbn [length].
    destruct (decide (start + 1 <= r < start + 1 + Z.of_nat (length tracks) /\ 1 <= c <= 14))
      as [Hr|Hr].
    + rewrite decide_True by lia.
      replace (Z.to_nat (r - start)) with (S (Z.to_nat (r - (start + 1)))) by lia.
      reflexivity.
    + destruct (decide (r = start /\ 1 <= c <= 14)) as [[-> Hc]|Hc].
      * rewrite decide_True by lia.
        replace (Z.to_nat (start - start)) with 0%nat by lia. reflexivity.
      * rewrite decide_False by lia. reflexivity.
Qed.

Lemma headers_storable : Forall (fun v => storable v = true) headers.
Proof.
  unfold headers. repeat constructor.
Qed.

Lemma stored_header c :
  1 <= c <= 14 ->
  stored (nth (Z.to_nat (c - 1)) headers PNone) = nth (Z.to_nat (c - 1)) headers PNone.
Proof.
  intros Hc.
  assert (Hn : (Z.to_nat (c - 1) < 14)%nat) by lia.
  revert Hn. generalize (Z.to_nat (c - 1)). intros n Hn.
  do 14 (destruct n as [|n]; [vm_compute; reflexivity|]). lia.
Qed.

(** C8.  Without a real danceability in any track, the Audio Features sheet
    is the warning sheet: a title and a note, no header row, no data row.
    With one, and with values that the sheet accepts, the sheet holds the
    14-column header on row 1 and exactly one data row per track, the track
    at position [i] on row [i + 1], numbered [i]; every other cell is
    empty. *)
Theorem audio_features_sheet_content (tracks : list (gmap string pyval)) :
  (has_features tracks = false ->
     _create_audio_features_sheet tracks = Ok warning_sheet /\
     dom (cells warning_sheet) = {[ (1, 1); (3, 1) ]} /\
     value_at warning_sheet (1, 1) = PStr warning_title /\
     value_at warning_sheet (3, 1) = PStr warning_note) /\
  (has_features tracks = true -> Forall row_storable tracks ->
     exists ws,
       _create_audio_features_sheet tracks = Ok ws /\
       (forall r c, value_at ws (r, c) = sheet_value tracks r c) /\
       (forall c, 1 <= c <= 14 ->
          value_at ws (1, c) = nth (Z.to_nat (c - 1)) headers PNone) /\
       (forall i, 1 <= i <= Z.of_nat (length tracks) ->
          value_at ws (i + 1, 1) = PInt i /\
          value_at ws (i + 1, 2) =
            stored (dict_get (nth (Z.to_nat (i - 1)) tracks ∅) "track_name" (PStr "Unknown"))) /\
       (forall r c, Z.of_nat (length tracks) + 1 < r -> value_at ws (r, c) = PNone)).
Proof.
  split.
  - intros Hno. unfold _create_audio_features_sheet. rewrite Hno. cbn [negb].
    split; [vm_compute; reflexivity|].
    split; [|split; reflexivity].
    unfold warning_sheet. cbn [cells]. rewrite !dom_insert_L, dom_empty_L.
    set_solver.
  - intros Hhas Hst. unfold _create_audio_features_sheet. rewrite Hhas. cbn [negb].
    destruct (write_cells_run 1 write_header_cell headers write_header_cell_writes
                headers_storable 1 (create_sheet "Audio Features"))
      as (ws1 & -> & Hval1); [reflexivity|].
    destruct (write_data_rows_run tracks Hst 2 ws1) as (ws2 & -> & Hval2).
    { intros r c Hr. rewrite Hval1. rewrite decide_False by lia. reflexivity. }
    assert (Hsheet : forall r c,
      value_at (_style_worksheet "Audio Features" ws2) (r, c) = sheet_value tracks r c).
    { intros r c. rewrite value_at_style_worksheet, Hval2, Hval1. unfold sheet_value.
      change (Z.of_nat (length headers)) with 14.
      change (value_at (create_sheet "Audio Features") (r, c)) with PNone.
      destruct (decide (1 <= c <= 14)) as [Hc|Hc].
      - destruct (decide (r = 1)) as [->|Hr1].
        + rewrite decide_False by lia. rewrite decide_True by lia.
          apply stored_header. exact Hc.
        + destruct (decide (2 <= r < 2 + Z.of_nat (length tracks))) as [Hr|Hr].
          * rewrite decide_True by lia. reflexivity.
          * rewrite decide_False by lia. rewrite decide_False by lia. reflexivity.
      - rewrite decide_False by lia. rewrite decide_False by lia. reflexivity. }
    eexists. split; [reflexivity|]. split; [exact Hsheet|]. split; [|split].
    + intros c Hc. rewrite Hsheet. unfold sheet_value.
      rewrite decide_True by lia. rewrite decide_True by lia. reflexivity.
    + intros i Hi. rewrite !Hsheet. unfold sheet_value.
      replace (Z.to_nat (i + 1 - 2)) with (Z.to_nat (i - 1)) by lia.
      split.
      * rewrite (decide_True (P := 1 <= 1 <= 14)) by lia.
        rewrite (decide_False (P := i + 1 = 1)) by lia.
        rewrite decide_True by lia.
        change (Z.to_nat (1 - 1)) with 0%nat. unfold feature_row. cbn [nth].
        unfold stored, bind_value. f_equal. lia.
      * rewrite (decide_True (P := 1 <= 2 <= 14)) by lia.
        rewrite (decide_False (P := i + 1 = 1)) by lia.
        rewrite decide_True by lia.
        reflexivity.
    + intros r c Hr. rewrite Hsheet. unfold sheet_value.
      destruct (decide (1 <= c <= 14)); [|reflexivity].
      rewrite decide_False by lia. rewrite decide_False by lia. reflexivity.
Qed.

End AudioFeaturesSheet.

Lemma audio_features_sheet_content_witness :
  @ExcelProcessor._create_audio_features_sheet scalar_runtime [all_defaults]
    = Ok warning_sheet /\
  exists ws,
    @ExcelProcessor._create_audio_features_sheet scalar_runtime [dance_track; all_defaults]
      = Ok ws /\
    ExcelProcessor.value_at ws (1, 3) = PStr "Danceability" /\
    ExcelProcessor.value_at ws (2, 1) = PInt 1 /\
    ExcelProcessor.value_at ws (3, 2) = PStr "Unknown" /\
    ExcelProcessor.value_at ws (4, 1) = PNone.
Proof.
  split.
  - exact (proj1 (proj1 (@audio_features_sheet_content scalar_runtime [all_defaults]) eq_refl)).
  - assert (Hst : Forall (@row_storable scalar_runtime) [dance_track; all_defaults]).
    { repeat constructor. }
    destruct (proj2 (@audio_features_sheet_content scalar_runtime [dance_track; all_defaults])
                eq_refl Hst) as (ws & Hrun & Hval & Hhead & Hrow & Hout).
    exists ws. split; [exact Hrun|].
    split; [exact (Hhead 3 ltac:(lia))|].
    split; [exact (proj1 (Hrow 1 ltac:(cbn; lia)))|].
    split; [exact (proj2 (Hrow 2 ltac:(cbn; lia)))|].
    apply Hout. cbn. lia.
Defined.
